(** * Resource helpers of the module framework (pkg/module/util.go)

    A shallow embedding of the helpers that turn Kubernetes objects and
    Terraform resources into Kusion resource records, together with the
    properties of identifiers, provider URLs and failure paths.

    Go strings are byte sequences: they are [string] (lists of 8-bit
    [ascii]).  Go maps are reference values: a map is a location in a
    store of map objects, so that sharing of a map between a provider
    configuration and a record is visible.  A function that allocates a
    map or may panic lives in the monad [Go]. *)

From Stdlib Require Import ZArith Ascii String List.
From stdpp Require Import base option gmap strings list fin_maps.

Local Open Scope string_scope.
Set Warnings "-register-all".
Set Default Proof Using "Type".

(** ** Strings: what the helpers use of package strings *)

Module strings.

(** [strings.Split(s, sep)] for a separator of one byte, the only way the
    helpers call it: the substrings between the separators, in order;
    a string without separator gives the one-element slice holding it.
    The result is never empty, so the last branch is not taken. *)
Fixpoint Split (s : string) (sep : ascii) : list string :=
  match s with
  | EmptyString => [EmptyString]
  | String c rest =>
      if Ascii.eqb c sep then EmptyString :: Split rest sep
      else match Split rest sep with
           | seg :: segs => String c seg :: segs
           | [] => [String c EmptyString]
           end
  end.

(** [strings.Join(elems, sep)]. *)
Fixpoint Join (elems : list string) (sep : string) : string :=
  match elems with
  | [] => ""
  | [e] => e
  | e :: rest => e +:+ sep +:+ Join rest sep
  end.

(** [strings.Count(s, sep)] for a one-byte separator. *)
Fixpoint Count (s : string) (sep : ascii) : nat :=
  match s with
  | EmptyString => 0
  | String c rest => (if Ascii.eqb c sep then 1 else 0) + Count rest sep
  end.

(** [strings.ContainsRune(s, sep)] for a one-byte separator. *)
Definition Contains (s : string) (sep : ascii) : bool :=
  negb (Nat.eqb (Count s sep) 0).

End strings.

(** ** Dynamic values, map objects and the store *)

(** A location of a map object. *)
Abbreviation loc := positive (only parsing).

(** A Go map value: [None] is the nil map, [Some l] refers to the map
    object at [l]. *)
Abbreviation mapref := (option positive) (only parsing).

(** What an [any] can hold in the attribute and extension maps. [VMap] is a
    [map[string]any] (and [v1.GenericConfig], which is that type): it holds
    the reference, not the contents. *)
Inductive value : Type :=
| VNil
| VBool (b : bool)
| VInt (n : Z)
| VString (s : string)
| VList (l : list value)
| VMap (m : mapref).

(** The store of map objects. *)
Abbreviation heap := (gmap positive (gmap string value)) (only parsing).

Inductive panic : Type :=
| TypeAssertionError
| RuntimeError.

Inductive outcome (A : Type) : Type :=
| Returns (a : A)
| Panics (p : panic).
Arguments Returns {A} a.
Arguments Panics {A} p.

(** Computations over the store that may panic. *)
Definition Go (A : Type) : Type := heap -> outcome (A * heap).

Definition ret {A} (a : A) : Go A := fun h => Returns (a, h).

Definition bind {A B} (m : Go A) (k : A -> Go B) : Go B :=
  fun h => match m h with
           | Returns (a, h') => k a h'
           | Panics p => Panics p
           end.

Definition throw {A} (p : panic) : Go A := fun _ => Panics p.

#[global] Instance Go_ret : MRet Go := @ret.
#[global] Instance Go_bind : MBind Go := fun A B k m => bind m k.

(** A map literal: a new map object holding the given entries. *)
Definition new_map (entries : list (string * value)) : Go mapref :=
  fun h => let l := fresh (dom h) in
           Returns (Some l, <[l := list_to_map entries]> h).

(** What a map value holds under a key in a store; the nil map holds
    nothing. *)
Definition entry (h : heap) (m : mapref) (k : string) : option value :=
  l ← m; entries ← h !! l; entries !! k.

(** [v, ok := m[k]]. *)
Definition map_index (m : mapref) (k : string) : Go (option value) :=
  fun h => Returns (entry h m k, h).

(** [v.(string)], the unchecked assertion. *)
Definition assert_string (v : value) : Go string :=
  match v with
  | VString s => ret s
  | _ => throw TypeAssertionError
  end.

(** ** Errors *)

(** [ErrEmptyTFProviderVersion] is the package's sentinel; the other errors
    are made by [fmt.Errorf] and carry their message. *)
Inductive error : Type :=
| ErrEmptyTFProviderVersion
| ErrorString (msg : string).

(** [fmt.Errorf(format, arg)] for a format made of a prefix and one [%s]. *)
Definition Errorf (prefix arg : string) : error := ErrorString (prefix +:+ arg).

Definition ErrEmptySource : error :=
  Errorf "empty terraform provider source" "".
Definition ErrEmptyResourceType : error :=
  Errorf "empty resource type" "".
Definition ErrInvalidProviderSource (source : string) : error :=
  Errorf "invalid terraform provider source: " source.

(** ** Records *)

Definition defaultTFHost : string := "registry.terraform.io".

Record ProviderConfig : Type := {
  Source : string;
  Version : string;
  ProviderMeta : mapref
}.

(** The fields of [metav1.TypeMeta] and [metav1.ObjectMeta] the helpers
    read. *)
Record TypeMeta : Type := { APIVersion : string; Kind : string }.
Record ObjectMeta : Type := { Namespace : string; Name : string }.

Inductive ResourceType : Type := Kubernetes | Terraform.

(** Modelled from the spec: the record [v1.Resource] of the Kusion API
    package, which is not part of this repository's sources; its five
    fields are those of the spec's unified resource record.  [DependsOn] is
    a slice, [None] being nil. *)
Record Resource : Type := {
  ID : string;
  Type_ : ResourceType;
  Attributes : mapref;
  DependsOn : option (list string);
  Extensions : mapref
}.

(** ** The helpers *)

Definition KubernetesResourceID (typeMeta : TypeMeta) (objectMeta : ObjectMeta)
  : string :=
  let id := APIVersion typeMeta +:+ ":" +:+ Kind typeMeta +:+ ":" in
  let id := if String.eqb (Namespace objectMeta) "" then id
            else id +:+ (Namespace objectMeta +:+ ":") in
  id +:+ Name objectMeta.

Definition UniqueAppName (projectName stackName appName : string) : string :=
  projectName +:+ "-" +:+ stackName +:+ "-" +:+ appName.

(** The labels map holds strings only and is new at every call, so it is
    given by its contents: the two entries of the map literal. *)
Definition UniqueAppLabels (projectName appName : string) : gmap string string :=
  list_to_map [("app.kubernetes.io/part-of", projectName);
               ("app.kubernetes.io/name", appName)].

Definition TerraformResourceID (providerCfg : ProviderConfig)
    (resType resName : string) : string * option error :=
  if String.eqb (Version providerCfg) "" then ("", Some ErrEmptyTFProviderVersion)
  else
    let srcAttrs := strings.Split (Source providerCfg) "/" in
    match
      (if Nat.eqb (List.length srcAttrs) 3 then
         Some (nth 1 srcAttrs "", nth 2 srcAttrs "")
       else if Nat.eqb (List.length srcAttrs) 2 then
         Some (nth 0 srcAttrs "", nth 1 srcAttrs "")
       else None)
    with
    | None => ("", Some (ErrInvalidProviderSource (Source providerCfg)))
    | Some (providerNamespace, providerName) =>
        (strings.Join [providerNamespace; providerName; resType; resName] ":",
         None)
    end.

Definition TerraformProviderExtensions (providerCfg : ProviderConfig)
    (resType : string) : Go (mapref * option error) :=
  if String.eqb (Version providerCfg) "" then
    ret (None, Some ErrEmptyTFProviderVersion)
  else if String.eqb (Source providerCfg) "" then
    ret (None, Some ErrEmptySource)
  else if String.eqb resType "" then
    ret (None, Some ErrEmptyResourceType)
  else
    let srcAttrs := strings.Split (Source providerCfg) "/" in
    match
      (if Nat.eqb (List.length srcAttrs) 3 then
         Some (strings.Join [Source providerCfg; Version providerCfg] "/")
       else if Nat.eqb (List.length srcAttrs) 2 then
         Some (strings.Join
                 [defaultTFHost; Source providerCfg; Version providerCfg] "/")
       else None)
    with
    | None => ret (None, Some (ErrInvalidProviderSource (Source providerCfg)))
    | Some providerURL =>
        m ← new_map [("provider", VString providerURL);
                     ("providerMeta", VMap (ProviderMeta providerCfg));
                     ("resourceType", VString resType)];
        ret (m, None)
    end.

Definition WrapTFResourceToKusionResource (providerCfg : ProviderConfig)
    (resType resourceID : string) (attributes : mapref)
    (dependsOn : option (list string)) : Go (option Resource * option error) :=
  '(extensions, err) ← TerraformProviderExtensions providerCfg resType;
  match err with
  | Some e => ret (None, Some e)
  | None =>
      ret (Some {| ID := resourceID;
                   Type_ := Terraform;
                   Attributes := attributes;
                   DependsOn := dependsOn;
                   Extensions := extensions |}, None)
  end.

Definition TerraformProviderRegion (providerCfg : ProviderConfig) : Go string :=
  region ← map_index (ProviderMeta providerCfg) "region";
  match region with
  | None => ret ""
  | Some v => assert_string v
  end.

(** ** Wrapping a Kubernetes object

    [runtime.Object], [GroupVersionKind().String()], the unstructured
    converter and the extension key [v1.ResourceExtensionGVK] belong to the
    Kubernetes and Kusion libraries.  The helper is written against this
    interface: [GoValue] is what an [any] argument can hold,
    [assert_RuntimeObject] is the dynamic check behind
    [resource.(runtime.Object)], and the two calls may fail or panic as
    the libraries decide. *)
Class Runtime (GoValue : Type) : Type := {
  RuntimeObject : Type;
  assert_RuntimeObject : GoValue -> option RuntimeObject;
  GroupVersionKindString : RuntimeObject -> Go string;
  ToUnstructured : GoValue -> Go (mapref * option error);
  ResourceExtensionGVK : string
}.

Definition WrapK8sResourceToKusionResource `{Runtime GoValue}
    (id : string) (resource : GoValue) : Go (option Resource * option error) :=
  match assert_RuntimeObject resource with
  | None => throw TypeAssertionError
  | Some obj =>
      gvk ← GroupVersionKindString obj;
      '(unstructured, err) ← ToUnstructured resource;
      match err with
      | Some e => ret (None, Some e)
      | None =>
          extensions ← new_map [(ResourceExtensionGVK, VString gvk)];
          ret (Some {| ID := id;
                       Type_ := Kubernetes;
                       Attributes := unstructured;
                       DependsOn := None;
                       Extensions := extensions |}, None)
      end
  end.

(** A small universe of arguments to run the helper on: an API object that
    carries its type metadata, and a plain integer, which is no
    [runtime.Object].  Objects convert to a map of their two type fields;
    an object without kind does not convert. *)
Inductive sample_value : Type :=
| SampleObject (typeMeta : TypeMeta)
| SampleInt (n : Z).

#[global] Instance sample_runtime : Runtime sample_value := {|
  RuntimeObject := TypeMeta;
  assert_RuntimeObject := fun v =>
    match v with SampleObject tm => Some tm | SampleInt _ => None end;
  GroupVersionKindString := fun tm =>
    ret (APIVersion tm +:+ ", Kind=" +:+ Kind tm);
  ToUnstructured := fun v =>
    match v with
    | SampleObject tm =>
        if String.eqb (Kind tm) "" then
          ret (None, Some (ErrorString "Object 'Kind' is missing"))
        else
          m ← new_map [("apiVersion", VString (APIVersion tm));
                       ("kind", VString (Kind tm))];
          ret (m, None)
    | SampleInt _ => throw RuntimeError
    end;
  ResourceExtensionGVK := "GVK"
|}.

(** ** Shapes of a provider source, for the statements below *)

(** The source splits on the slash into two or three segments. *)
Definition two_or_three_segments (source : string) : bool :=
  let n := List.length (strings.Split source "/") in
  Nat.eqb n 2 || Nat.eqb n 3.

(** The reading of the error taxonomy: two or three segments, none of them
    the empty string. *)
Definition two_or_three_nonempty_segments (source : string) : bool :=
  two_or_three_segments source
  && forallb (fun seg => negb (String.eqb seg "")) (strings.Split source "/").

(** ** The scenarios of the specification, run on the model *)

Example scenario_k8s_namespaced :
  KubernetesResourceID {| APIVersion := "apps/v1"; Kind := "Deployment" |}
                       {| Namespace := "nginx"; Name := "nginx-deployment" |}
  = "apps/v1:Deployment:nginx:nginx-deployment".
Proof. reflexivity. Qed.

Example scenario_k8s_cluster_scoped :
  KubernetesResourceID {| APIVersion := "v1"; Kind := "Namespace" |}
                       {| Namespace := ""; Name := "nginx" |}
  = "v1:Namespace:nginx".
Proof. reflexivity. Qed.

Example scenario_app_name : UniqueAppName "proj" "dev" "web" = "proj-dev-web".
Proof. reflexivity. Qed.

Example scenario_tf_id :
  TerraformResourceID
    {| Source := "hashicorp/aws"; Version := "5.0.0"; ProviderMeta := None |}
    "aws_s3_bucket" "b"
  = ("hashicorp:aws:aws_s3_bucket:b", None).
Proof. reflexivity. Qed.

Example scenario_tf_id_no_version :
  TerraformResourceID
    {| Source := "hashicorp/aws"; Version := ""; ProviderMeta := None |} "t" "n"
  = ("", Some ErrEmptyTFProviderVersion).
Proof. reflexivity. Qed.

Example scenario_tf_extensions_default_host :
  TerraformProviderExtensions
    {| Source := "hashicorp/aws"; Version := "5.0.0"; ProviderMeta := Some 1%positive |}
    "aws_s3_bucket" {[ 1%positive := {[ "region" := VString "us-east-1" ]} ]}
  = Returns
      (Some 2%positive, None,
       <[ 2%positive :=
            list_to_map
              [("provider", VString "registry.terraform.io/hashicorp/aws/5.0.0");
               ("providerMeta", VMap (Some 1%positive));
               ("resourceType", VString "aws_s3_bucket")] ]>
         {[ 1%positive := {[ "region" := VString "us-east-1" ]} ]}).
Proof. vm_compute. reflexivity. Qed.

Example tf_extensions_empty_segment :
  TerraformProviderExtensions
    {| Source := "/aws"; Version := "5.0.0"; ProviderMeta := None |}
    "aws_s3_bucket" ∅
  = Returns
      (Some 1%positive, None,
       {[ 1%positive :=
            list_to_map
              [("provider", VString "registry.terraform.io//aws/5.0.0");
               ("providerMeta", VMap None);
               ("resourceType", VString "aws_s3_bucket")] ]}).
Proof. vm_compute. reflexivity. Qed.

Example tf_id_empty_segment :
  TerraformResourceID
    {| Source := "/aws"; Version := "5.0.0"; ProviderMeta := None |}
    "aws_s3_bucket" "b"
  = (":aws:aws_s3_bucket:b", None).
Proof. reflexivity. Qed.

Example scenario_tf_extensions_four_segments :
  TerraformProviderExtensions
    {| Source := "a/b/c/d"; Version := "1"; ProviderMeta := None |} "t" ∅
  = Returns (None, Some (ErrInvalidProviderSource "a/b/c/d"), ∅).
Proof. reflexivity. Qed.

(** ** Splitting and joining *)

Section split_lemmas.
Import strings.

Lemma append_nil (b : string) : "" +:+ b = b.
Proof. reflexivity. Qed.

Lemma append_cons (c : ascii) (a b : string) :
  String c a +:+ b = String c (a +:+ b).
Proof. reflexivity. Qed.

Lemma append_assoc (a b c : string) : (a +:+ b) +:+ c = a +:+ (b +:+ c).
Proof.
  induction a as [|x a IH]; [reflexivity|].
  now rewrite !append_cons, IH.
Qed.

Lemma Split_not_nil (s : string) (sep : ascii) : Split s sep <> [].
Proof.
  destruct s as [|c s]; simpl; [discriminate|].
  destruct (Ascii.eqb c sep); [discriminate|].
  destruct (Split s sep); discriminate.
Qed.

(** [Split] returns one more segment than there are separators. *)
Lemma Split_length (s : string) (sep : ascii) :
  List.length (Split s sep) = S (Count s sep).
Proof.
  induction s as [|c s IH]; simpl; [reflexivity|].
  destruct (Ascii.eqb c sep); simpl; [now rewrite IH|].
  destruct (Split s sep) eqn:E; simpl in *; [discriminate | exact IH].
Qed.

Lemma Count_app (a b : string) (sep : ascii) :
  Count (a +:+ b) sep = Count a sep + Count b sep.
Proof.
  induction a as [|c a IH]; [reflexivity|].
  rewrite append_cons. simpl. rewrite IH. lia.
Qed.

Lemma Contains_false (s : string) (sep : ascii) :
  Contains s sep = false <-> Count s sep = 0.
Proof.
  unfold Contains. destruct (Nat.eqb_spec (Count s sep) 0); simpl;
    split; congruence.
Qed.

Lemma Split_no_sep (s : string) (sep : ascii) :
  Count s sep = 0 -> Split s sep = [s].
Proof.
  induction s as [|c s IH]; simpl; [reflexivity|].
  destruct (Ascii.eqb c sep); simpl; [discriminate|].
  intros H. now rewrite (IH H).
Qed.

(** A first segment free of the separator is split off as it is. *)
Lemma Split_app (a b : string) (sep : ascii) :
  Count a sep = 0 ->
  Split (a +:+ String sep b) sep = a :: Split b sep.
Proof.
  induction a as [|c a IH]; rewrite ?append_nil, ?append_cons; simpl.
  - intros _. now rewrite Ascii.eqb_refl.
  - destruct (Ascii.eqb c sep); simpl; [discriminate|].
    intros H. now rewrite (IH H).
Qed.

Lemma Join_two (a b sep : string) : Join [a; b] sep = a +:+ sep +:+ b.
Proof. reflexivity. Qed.

Lemma Join_three (a b c sep : string) :
  Join [a; b; c] sep = a +:+ sep +:+ b +:+ sep +:+ c.
Proof. reflexivity. Qed.

Lemma Join_four (a b c d sep : string) :
  Join [a; b; c; d] sep = a +:+ sep +:+ b +:+ sep +:+ c +:+ sep +:+ d.
Proof. reflexivity. Qed.

(** Joining separator-free segments and splitting again gives them back. *)
Lemma Split_Join (segs : list string) (sep : ascii) :
  segs <> [] ->
  Forall (fun seg => Count seg sep = 0) segs ->
  Split (Join segs (String sep "")) sep = segs.
Proof.
  intros Hne Hall. induction Hall as [|seg rest Hseg Hrest IH]; [congruence|].
  destruct rest as [|seg' rest].
  - simpl. now apply Split_no_sep.
  - change (Join (seg :: seg' :: rest) (String sep ""))
      with (seg +:+ String sep "" +:+ Join (seg' :: rest) (String sep "")).
    change (String sep "" +:+ Join (seg' :: rest) (String sep ""))
      with (String sep (Join (seg' :: rest) (String sep ""))).
    rewrite Split_app by assumption.
    rewrite IH; [reflexivity | discriminate].
Qed.

End split_lemmas.

(** ** Kubernetes resource identifiers *)

Lemma eqb_empty_false (s : string) : s <> "" -> String.eqb s "" = false.
Proof. intros H. now apply String.eqb_neq. Qed.

(** The identifier as a join of its segments, for each of the two cases. *)
Lemma KubernetesResourceID_namespaced (typeMeta : TypeMeta) (objectMeta : ObjectMeta) :
  Namespace objectMeta <> "" ->
  KubernetesResourceID typeMeta objectMeta
  = strings.Join [APIVersion typeMeta; Kind typeMeta; Namespace objectMeta;
                  Name objectMeta] ":".
Proof.
  intros Hns. unfold KubernetesResourceID.
  rewrite (eqb_empty_false _ Hns), Join_four. now rewrite !append_assoc.
Qed.

Lemma KubernetesResourceID_cluster_scoped (typeMeta : TypeMeta) (objectMeta : ObjectMeta) :
  Namespace objectMeta = "" ->
  KubernetesResourceID typeMeta objectMeta
  = strings.Join [APIVersion typeMeta; Kind typeMeta; Name objectMeta] ":".
Proof.
  intros Hns. unfold KubernetesResourceID.
  rewrite Hns, String.eqb_refl, Join_three. now rewrite !append_assoc.
Qed.

(** C6. For every typeMeta and objectMeta, [KubernetesResourceID] is
    apiVersion:kind:namespace:name when the namespace is not empty and
    apiVersion:kind:name when it is the empty string: the four strings are
    taken as they are and an empty namespace leaves no empty token. *)
Theorem KubernetesResourceID_grammar (typeMeta : TypeMeta) (objectMeta : ObjectMeta) :
  (Namespace objectMeta <> "" ->
   KubernetesResourceID typeMeta objectMeta
   = APIVersion typeMeta +:+ ":" +:+ Kind typeMeta +:+ ":"
       +:+ Namespace objectMeta +:+ ":" +:+ Name objectMeta)
  /\ (Namespace objectMeta = "" ->
      KubernetesResourceID typeMeta objectMeta
      = APIVersion typeMeta +:+ ":" +:+ Kind typeMeta +:+ ":" +:+ Name objectMeta).
Proof.
  split; intros Hns.
  - now rewrite KubernetesResourceID_namespaced, Join_four.
  - now rewrite KubernetesResourceID_cluster_scoped, Join_three.
Qed.

Lemma KubernetesResourceID_grammar_witness :
  KubernetesResourceID {| APIVersion := "apps/v1"; Kind := "Deployment" |}
                       {| Namespace := "nginx"; Name := "nginx-deployment" |}
  = "apps/v1:Deployment:nginx:nginx-deployment"
  /\ KubernetesResourceID {| APIVersion := "v1"; Kind := "Namespace" |}
                          {| Namespace := ""; Name := "nginx" |}
     = "v1:Namespace:nginx".
Proof.
  split.
  - apply (proj1 (KubernetesResourceID_grammar
                    {| APIVersion := "apps/v1"; Kind := "Deployment" |}
                    {| Namespace := "nginx"; Name := "nginx-deployment" |})).
    discriminate.
  - apply (proj2 (KubernetesResourceID_grammar
                    {| APIVersion := "v1"; Kind := "Namespace" |}
                    {| Namespace := ""; Name := "nginx" |})).
    reflexivity.
Defined.

(** The number of colon-separated segments of an identifier, whatever the
    inputs: three or four, and one more for every colon an input holds. *)
Lemma KubernetesResourceID_segments (typeMeta : TypeMeta) (objectMeta : ObjectMeta) :
  List.length (strings.Split (KubernetesResourceID typeMeta objectMeta) ":")
  = (if String.eqb (Namespace objectMeta) "" then 3 else 4)
    + strings.Count (APIVersion typeMeta) ":"
    + strings.Count (Kind typeMeta) ":"
    + strings.Count (Namespace objectMeta) ":"
    + strings.Count (Name objectMeta) ":".
Proof.
  rewrite Split_length. unfold KubernetesResourceID.
  destruct (String.eqb_spec (Namespace objectMeta) "") as [-> | _];
    rewrite !Count_app; simpl; lia.
Qed.

(** C7, as the specification states it, fails: a cluster-scoped object whose
    name holds a colon, as the names of RBAC roles do, has an identifier of
    four segments and not three. *)
Lemma KubernetesResourceID_segments_counterexample :
  ~ (forall typeMeta objectMeta,
        List.length (strings.Split (KubernetesResourceID typeMeta objectMeta) ":")
        = if String.eqb (Namespace objectMeta) "" then 3 else 4).
Proof.
  intros H.
  specialize (H {| APIVersion := "rbac.authorization.k8s.io/v1";
                   Kind := "ClusterRole" |}
                {| Namespace := ""; Name := "system:node" |}).
  vm_compute in H. discriminate H.
Qed.

(** C7, amended. When none of apiVersion, kind, namespace and name holds a
    colon, the identifier splits on the colon into exactly three segments
    for the empty namespace and exactly four otherwise, and the segments
    are the inputs. *)
Theorem KubernetesResourceID_segments_colon_free
    (typeMeta : TypeMeta) (objectMeta : ObjectMeta) :
  strings.Contains (APIVersion typeMeta) ":" = false ->
  strings.Contains (Kind typeMeta) ":" = false ->
  strings.Contains (Namespace objectMeta) ":" = false ->
  strings.Contains (Name objectMeta) ":" = false ->
  strings.Split (KubernetesResourceID typeMeta objectMeta) ":"
  = (if String.eqb (Namespace objectMeta) "" then
       [APIVersion typeMeta; Kind typeMeta; Name objectMeta]
     else
       [APIVersion typeMeta; Kind typeMeta; Namespace objectMeta;
        Name objectMeta])
  /\ List.length (strings.Split (KubernetesResourceID typeMeta objectMeta) ":")
     = if String.eqb (Namespace objectMeta) "" then 3 else 4.
Proof.
  intros Ha%Contains_false Hk%Contains_false Hn%Contains_false
         Hm%Contains_false.
  split.
  - destruct (String.eqb_spec (Namespace objectMeta) "") as [Hns | Hns].
    + rewrite (KubernetesResourceID_cluster_scoped _ _ Hns).
      apply Split_Join; [discriminate | repeat constructor; assumption].
    + rewrite (KubernetesResourceID_namespaced _ _ Hns).
      apply Split_Join; [discriminate | repeat constructor; assumption].
  - rewrite KubernetesResourceID_segments, Ha, Hk, Hn, Hm. lia.
Qed.

Lemma KubernetesResourceID_segments_colon_free_witness :
  strings.Split
    (KubernetesResourceID {| APIVersion := "apps/v1"; Kind := "Deployment" |}
                          {| Namespace := "nginx"; Name := "nginx-deployment" |})
    ":"
  = ["apps/v1"; "Deployment"; "nginx"; "nginx-deployment"]
  /\ List.length
       (strings.Split
          (KubernetesResourceID {| APIVersion := "apps/v1"; Kind := "Deployment" |}
                                {| Namespace := "nginx"; Name := "nginx-deployment" |})
          ":") = 4.
Proof.
  apply (KubernetesResourceID_segments_colon_free
           {| APIVersion := "apps/v1"; Kind := "Deployment" |}
           {| Namespace := "nginx"; Name := "nginx-deployment" |});
    reflexivity.
Defined.

(** ** Terraform provider extensions *)

(** The location a map literal is allocated at is not in use. *)
Lemma fresh_map_not_in_store (h : heap) : h !! fresh (dom h) = None.
Proof. apply not_elem_of_dom, is_fresh. Qed.

Lemma ErrInvalidProviderSource_distinct (source : string) :
  ErrInvalidProviderSource source <> ErrEmptyTFProviderVersion
  /\ ErrInvalidProviderSource source <> ErrEmptySource
  /\ ErrInvalidProviderSource source <> ErrEmptyResourceType
  /\ ErrEmptySource <> ErrEmptyResourceType
  /\ ErrEmptySource <> ErrEmptyTFProviderVersion
  /\ ErrEmptyResourceType <> ErrEmptyTFProviderVersion.
Proof. repeat split; discriminate. Qed.

Section extensions.
Variables (providerCfg : ProviderConfig) (resType : string) (h : heap).
Hypothesis Hversion : Version providerCfg <> "".
Hypothesis Hsource : Source providerCfg <> "".
Hypothesis HresType : resType <> "".

Lemma TerraformProviderExtensions_three :
  List.length (strings.Split (Source providerCfg) "/") = 3 ->
  TerraformProviderExtensions providerCfg resType h
  = Returns
      (Some (fresh (dom h)), None,
       <[fresh (dom h) :=
           list_to_map
             [("provider",
               VString (Source providerCfg +:+ "/" +:+ Version providerCfg));
              ("providerMeta", VMap (ProviderMeta providerCfg));
              ("resourceType", VString resType)]]> h).
Proof using Hversion Hsource HresType.
  intros Hlen. unfold TerraformProviderExtensions.
  rewrite !eqb_empty_false by assumption. rewrite Hlen. reflexivity.
Qed.

Lemma TerraformProviderExtensions_two :
  List.length (strings.Split (Source providerCfg) "/") = 2 ->
  TerraformProviderExtensions providerCfg resType h
  = Returns
      (Some (fresh (dom h)), None,
       <[fresh (dom h) :=
           list_to_map
             [("provider",
               VString ("registry.terraform.io/" +:+ Source providerCfg
                          +:+ "/" +:+ Version providerCfg));
              ("providerMeta", VMap (ProviderMeta providerCfg));
              ("resourceType", VString resType)]]> h).
Proof using Hversion Hsource HresType.
  intros Hlen. unfold TerraformProviderExtensions.
  rewrite !eqb_empty_false by assumption. rewrite Hlen. reflexivity.
Qed.

Lemma TerraformProviderExtensions_other :
  two_or_three_segments (Source providerCfg) = false ->
  TerraformProviderExtensions providerCfg resType h
  = Returns (None, Some (ErrInvalidProviderSource (Source providerCfg)), h).
Proof using Hversion Hsource HresType.
  unfold two_or_three_segments. intros [H2 H3]%orb_false_elim.
  unfold TerraformProviderExtensions.
  rewrite !eqb_empty_false by assumption. now rewrite H2, H3.
Qed.

End extensions.

(** Whatever the inputs, the helper returns: it never panics, and it ends
    in exactly one of its five ways. *)
Lemma TerraformProviderExtensions_cases (providerCfg : ProviderConfig)
    (resType : string) (h : heap) :
  (Version providerCfg = ""
   /\ TerraformProviderExtensions providerCfg resType h
      = Returns (None, Some ErrEmptyTFProviderVersion, h))
  \/ (Version providerCfg <> "" /\ Source providerCfg = ""
      /\ TerraformProviderExtensions providerCfg resType h
         = Returns (None, Some ErrEmptySource, h))
  \/ (Version providerCfg <> "" /\ Source providerCfg <> "" /\ resType = ""
      /\ TerraformProviderExtensions providerCfg resType h
         = Returns (None, Some ErrEmptyResourceType, h))
  \/ (Version providerCfg <> "" /\ Source providerCfg <> "" /\ resType <> ""
      /\ two_or_three_segments (Source providerCfg) = false
      /\ TerraformProviderExtensions providerCfg resType h
         = Returns (None, Some (ErrInvalidProviderSource (Source providerCfg)), h))
  \/ (Version providerCfg <> "" /\ Source providerCfg <> "" /\ resType <> ""
      /\ two_or_three_segments (Source providerCfg) = true
      /\ exists providerURL,
          TerraformProviderExtensions providerCfg resType h
          = Returns
              (Some (fresh (dom h)), None,
               <[fresh (dom h) :=
                   list_to_map
                     [("provider", VString providerURL);
                      ("providerMeta", VMap (ProviderMeta providerCfg));
                      ("resourceType", VString resType)]]> h)).
Proof.
  destruct (String.eqb_spec (Version providerCfg) "") as [Hv | Hv].
  { left. split; [assumption|]. unfold TerraformProviderExtensions.
    now rewrite Hv. }
  destruct (String.eqb_spec (Source providerCfg) "") as [Hs | Hs].
  { right; left. repeat split; try assumption.
    unfold TerraformProviderExtensions.
    rewrite (eqb_empty_false _ Hv). now rewrite Hs. }
  destruct (String.eqb_spec resType "") as [Hr | Hr].
  { right; right; left. repeat split; try assumption.
    unfold TerraformProviderExtensions.
    rewrite (eqb_empty_false _ Hv), (eqb_empty_false _ Hs). now rewrite Hr. }
  destruct (two_or_three_segments (Source providerCfg)) eqn:Hshape.
  - do 4 right. repeat split; try assumption.
    unfold two_or_three_segments in Hshape.
    apply orb_true_iff in Hshape as [H2 | H3].
    + apply Nat.eqb_eq in H2. eexists.
      now apply TerraformProviderExtensions_two.
    + apply Nat.eqb_eq in H3. eexists.
      now apply TerraformProviderExtensions_three.
  - do 3 right; left. repeat split; try assumption.
    now apply TerraformProviderExtensions_other.
Qed.

(** C1. With version, source and resource type not empty: a source of
    exactly two segments gives the "provider" entry
    "registry.terraform.io/" + source + "/" + version, a source of exactly
    three segments gives source + "/" + version. *)
Theorem TerraformProviderExtensions_provider_url
    (providerCfg : ProviderConfig) (resType : string) (h : heap) :
  Version providerCfg <> "" -> Source providerCfg <> "" -> resType <> "" ->
  (List.length (strings.Split (Source providerCfg) "/") = 2 ->
   exists m h',
     TerraformProviderExtensions providerCfg resType h = Returns (m, None, h')
     /\ entry h' m "provider"
        = Some (VString ("registry.terraform.io/" +:+ Source providerCfg
                           +:+ "/" +:+ Version providerCfg)))
  /\ (List.length (strings.Split (Source providerCfg) "/") = 3 ->
      exists m h',
        TerraformProviderExtensions providerCfg resType h = Returns (m, None, h')
        /\ entry h' m "provider"
           = Some (VString (Source providerCfg +:+ "/" +:+ Version providerCfg))).
Proof.
  intros Hv Hs Hr. split; intros Hlen.
  - rewrite TerraformProviderExtensions_two by assumption.
    do 2 eexists. split; [reflexivity|].
    unfold entry. simpl. rewrite lookup_insert_eq. simpl.
    now rewrite lookup_insert_eq.
  - rewrite TerraformProviderExtensions_three by assumption.
    do 2 eexists. split; [reflexivity|].
    unfold entry. simpl. rewrite lookup_insert_eq. simpl.
    now rewrite lookup_insert_eq.
Qed.

Lemma TerraformProviderExtensions_provider_url_witness :
  (exists m h',
      TerraformProviderExtensions
        {| Source := "hashicorp/aws"; Version := "5.0.0"; ProviderMeta := None |}
        "aws_s3_bucket" ∅ = Returns (m, None, h')
      /\ entry h' m "provider"
         = Some (VString "registry.terraform.io/hashicorp/aws/5.0.0"))
  /\ (exists m h',
         TerraformProviderExtensions
           {| Source := "registry.customized.io/hashicorp/aws";
              Version := "5.0.0"; ProviderMeta := None |}
           "aws_s3_bucket" ∅ = Returns (m, None, h')
         /\ entry h' m "provider"
            = Some (VString "registry.customized.io/hashicorp/aws/5.0.0")).
Proof.
  split.
  - apply (proj1 (TerraformProviderExtensions_provider_url
                    {| Source := "hashicorp/aws"; Version := "5.0.0";
                       ProviderMeta := None |}
                    "aws_s3_bucket" ∅ ltac:(discriminate) ltac:(discriminate)
                    ltac:(discriminate))).
    reflexivity.
  - apply (proj2 (TerraformProviderExtensions_provider_url
                    {| Source := "registry.customized.io/hashicorp/aws";
                       Version := "5.0.0"; ProviderMeta := None |}
                    "aws_s3_bucket" ∅ ltac:(discriminate) ltac:(discriminate)
                    ltac:(discriminate))).
    reflexivity.
Defined.

(** C4. The failure conditions are checked in the declared order: an empty
    version fails with the empty-version error whatever source and resource
    type are; otherwise an empty source fails with the empty-source error;
    otherwise an empty resource type fails with its error; otherwise a
    source that does not split into two or three segments fails with the
    invalid-source error. *)
Theorem TerraformProviderExtensions_failure_order
    (providerCfg : ProviderConfig) (resType : string) (h : heap) :
  (Version providerCfg = "" ->
   TerraformProviderExtensions providerCfg resType h
   = Returns (None, Some ErrEmptyTFProviderVersion, h))
  /\ (Version providerCfg <> "" -> Source providerCfg = "" ->
      TerraformProviderExtensions providerCfg resType h
      = Returns (None, Some ErrEmptySource, h))
  /\ (Version providerCfg <> "" -> Source providerCfg <> "" -> resType = "" ->
      TerraformProviderExtensions providerCfg resType h
      = Returns (None, Some ErrEmptyResourceType, h))
  /\ (Version providerCfg <> "" -> Source providerCfg <> "" -> resType <> "" ->
      two_or_three_segments (Source providerCfg) = false ->
      TerraformProviderExtensions providerCfg resType h
      = Returns (None, Some (ErrInvalidProviderSource (Source providerCfg)), h)).
Proof.
  destruct (TerraformProviderExtensions_cases providerCfg resType h)
    as [(Hv & E) | [(Hv & Hs & E) | [(Hv & Hs & Hr & E)
       | [(Hv & Hs & Hr & Hshape & E) | (Hv & Hs & Hr & Hshape & _)]]]];
    repeat split; intros; congruence.
Qed.

Lemma TerraformProviderExtensions_failure_order_witness :
  TerraformProviderExtensions
    {| Source := ""; Version := ""; ProviderMeta := None |} "" ∅
  = Returns (None, Some ErrEmptyTFProviderVersion, ∅)
  /\ TerraformProviderExtensions
       {| Source := ""; Version := "5.0.0"; ProviderMeta := None |} "" ∅
     = Returns (None, Some ErrEmptySource, ∅)
  /\ TerraformProviderExtensions
       {| Source := "a/b/c/d"; Version := "5.0.0"; ProviderMeta := None |} "" ∅
     = Returns (None, Some ErrEmptyResourceType, ∅)
  /\ TerraformProviderExtensions
       {| Source := "a/b/c/d"; Version := "5.0.0"; ProviderMeta := None |} "t" ∅
     = Returns (None, Some (ErrInvalidProviderSource "a/b/c/d"), ∅).
Proof.
  split_and!.
  - apply (proj1 (TerraformProviderExtensions_failure_order
                    {| Source := ""; Version := ""; ProviderMeta := None |} "" ∅)).
    reflexivity.
  - apply (proj1 (proj2 (TerraformProviderExtensions_failure_order
                    {| Source := ""; Version := "5.0.0"; ProviderMeta := None |}
                    "" ∅)));
      [discriminate | reflexivity].
  - apply (proj1 (proj2 (proj2 (TerraformProviderExtensions_failure_order
                    {| Source := "a/b/c/d"; Version := "5.0.0";
                       ProviderMeta := None |} "" ∅))));
      [discriminate | discriminate | reflexivity].
  - apply (proj2 (proj2 (proj2 (TerraformProviderExtensions_failure_order
                    {| Source := "a/b/c/d"; Version := "5.0.0";
                       ProviderMeta := None |} "t" ∅))));
      [discriminate | discriminate | discriminate | reflexivity].
Defined.

(** C5. Whenever the helper succeeds, the map it returns is a new map object
    with exactly the keys "provider", "providerMeta" and "resourceType";
    the "providerMeta" entry is the reference held by the configuration,
    every map object of the store, the provider's among them, is left as it
    was, and the "resourceType" entry is the argument. *)
Theorem TerraformProviderExtensions_complete
    (providerCfg : ProviderConfig) (resType : string) (h h' : heap)
    (m : mapref) :
  TerraformProviderExtensions providerCfg resType h = Returns (m, None, h') ->
  exists l entries,
    m = Some l
    /\ h !! l = None
    /\ h' = <[l := entries]> h
    /\ dom entries = {[ "provider"; "providerMeta"; "resourceType" ]}
    /\ entries !! "providerMeta" = Some (VMap (ProviderMeta providerCfg))
    /\ entries !! "resourceType" = Some (VString resType)
    /\ (forall l0 m0, h !! l0 = Some m0 -> h' !! l0 = Some m0).
Proof.
  intros Hrun.
  destruct (TerraformProviderExtensions_cases providerCfg resType h)
    as [(_ & E) | [(_ & _ & E) | [(_ & _ & _ & E)
       | [(_ & _ & _ & _ & E) | (_ & _ & _ & _ & url & E)]]]];
    rewrite E in Hrun; try discriminate Hrun.
  injection Hrun as <- <-.
  pose proof (fresh_map_not_in_store h) as Hfresh.
  eexists _, _. split; [reflexivity|]. split; [exact Hfresh|].
  split; [reflexivity|]. split_and!.
  - simpl. rewrite !dom_insert_L, dom_empty_L. set_solver.
  - simpl. rewrite lookup_insert_ne by discriminate.
    now rewrite lookup_insert_eq.
  - simpl. rewrite !lookup_insert_ne by discriminate.
    now rewrite lookup_insert_eq.
  - intros l0 m0 Hl0. rewrite lookup_insert_ne; [assumption|].
    intros <-. congruence.
Qed.

Lemma TerraformProviderExtensions_complete_witness :
  exists l entries,
    Some 2%positive = Some l
    /\ ({[ 1%positive := {[ "region" := VString "us-east-1" ]} ]} : heap) !! l
       = None
    /\ <[ 2%positive :=
            list_to_map
              [("provider", VString "registry.terraform.io/hashicorp/aws/5.0.0");
               ("providerMeta", VMap (Some 1%positive));
               ("resourceType", VString "aws_s3_bucket")] ]>
         ({[ 1%positive := {[ "region" := VString "us-east-1" ]} ]} : heap)
       = <[l := entries]> {[ 1%positive := {[ "region" := VString "us-east-1" ]} ]}
    /\ dom entries = {[ "provider"; "providerMeta"; "resourceType" ]}
    /\ entries !! "providerMeta" = Some (VMap (Some 1%positive))
    /\ entries !! "resourceType" = Some (VString "aws_s3_bucket")
    /\ (forall l0 m0,
          ({[ 1%positive := {[ "region" := VString "us-east-1" ]} ]} : heap) !! l0
          = Some m0 ->
          (<[ 2%positive :=
                list_to_map
                  [("provider",
                    VString "registry.terraform.io/hashicorp/aws/5.0.0");
                   ("providerMeta", VMap (Some 1%positive));
                   ("resourceType", VString "aws_s3_bucket")] ]>
             {[ 1%positive := {[ "region" := VString "us-east-1" ]} ]} : heap)
            !! l0 = Some m0).
Proof.
  apply (TerraformProviderExtensions_complete
           {| Source := "hashicorp/aws"; Version := "5.0.0";
              ProviderMeta := Some 1%positive |}
           "aws_s3_bucket"
           {[ 1%positive := {[ "region" := VString "us-east-1" ]} ]}).
  vm_compute. reflexivity.
Defined.

(** ** Terraform resource identifiers *)

Section resource_id.
Variables (providerCfg : ProviderConfig) (resType resName : string).
Hypothesis Hversion : Version providerCfg <> "".

Lemma TerraformResourceID_two (providerNamespace providerName : string) :
  strings.Split (Source providerCfg) "/" = [providerNamespace; providerName] ->
  TerraformResourceID providerCfg resType resName
  = (providerNamespace +:+ ":" +:+ providerName +:+ ":" +:+ resType
       +:+ ":" +:+ resName, None).
Proof using Hversion.
  intros Hsplit. unfold TerraformResourceID.
  rewrite (eqb_empty_false _ Hversion), Hsplit. reflexivity.
Qed.

Lemma TerraformResourceID_three (host providerNamespace providerName : string) :
  strings.Split (Source providerCfg) "/"
  = [host; providerNamespace; providerName] ->
  TerraformResourceID providerCfg resType resName
  = (providerNamespace +:+ ":" +:+ providerName +:+ ":" +:+ resType
       +:+ ":" +:+ resName, None).
Proof using Hversion.
  intros Hsplit. unfold TerraformResourceID.
  rewrite (eqb_empty_false _ Hversion), Hsplit. reflexivity.
Qed.

Lemma TerraformResourceID_other :
  two_or_three_segments (Source providerCfg) = false ->
  TerraformResourceID providerCfg resType resName
  = ("", Some (ErrInvalidProviderSource (Source providerCfg))).
Proof using Hversion.
  unfold two_or_three_segments. intros [H2 H3]%orb_false_elim.
  unfold TerraformResourceID.
  rewrite (eqb_empty_false _ Hversion). now rewrite H2, H3.
Qed.

Lemma TerraformResourceID_shaped :
  two_or_three_segments (Source providerCfg) = true ->
  snd (TerraformResourceID providerCfg resType resName) = None.
Proof using Hversion.
  unfold two_or_three_segments. intros Hshape.
  unfold TerraformResourceID. rewrite (eqb_empty_false _ Hversion).
  destruct (Nat.eqb _ 3); [reflexivity|].
  destruct (Nat.eqb _ 2); [reflexivity | discriminate].
Qed.

End resource_id.

(** C2, as the specification states it, fails: the helpers do not look at
    the segments themselves.  The source "/aws" splits into an empty
    segment and "aws"; both helpers accept it. *)
Lemma invalid_source_nonempty_counterexample :
  ~ (forall providerCfg resType resName (h : heap),
        Version providerCfg <> "" ->
        (snd (TerraformResourceID providerCfg resType resName)
         = Some (ErrInvalidProviderSource (Source providerCfg))
         <-> two_or_three_nonempty_segments (Source providerCfg) = false)
        /\ (Source providerCfg <> "" -> resType <> "" ->
            (exists m h',
                TerraformProviderExtensions providerCfg resType h
                = Returns (m, Some (ErrInvalidProviderSource (Source providerCfg)), h'))
            <-> two_or_three_nonempty_segments (Source providerCfg) = false)).
Proof.
  intros H.
  destruct (H {| Source := "/aws"; Version := "5.0.0"; ProviderMeta := None |}
              "aws_s3_bucket" "b" ∅ ltac:(discriminate)) as [[_ Hid] _].
  specialize (Hid eq_refl). vm_compute in Hid. discriminate Hid.
Qed.

(** C2, amended. With a version that is not empty, [TerraformResourceID]
    fails with the invalid-source error exactly when the source does not
    split on the slash into two or three segments, empty segments counted
    like any other, and succeeds otherwise; so does
    [TerraformProviderExtensions] when source and resource type are not
    empty either. *)
Theorem invalid_source_iff_segment_count
    (providerCfg : ProviderConfig) (resType resName : string) (h : heap) :
  Version providerCfg <> "" ->
  (snd (TerraformResourceID providerCfg resType resName)
   = Some (ErrInvalidProviderSource (Source providerCfg))
   <-> two_or_three_segments (Source providerCfg) = false)
  /\ (snd (TerraformResourceID providerCfg resType resName) = None
      <-> two_or_three_segments (Source providerCfg) = true)
  /\ (Source providerCfg <> "" -> resType <> "" ->
      ((exists m h',
           TerraformProviderExtensions providerCfg resType h
           = Returns (m, Some (ErrInvalidProviderSource (Source providerCfg)), h'))
       <-> two_or_three_segments (Source providerCfg) = false)
      /\ ((exists m h',
              TerraformProviderExtensions providerCfg resType h
              = Returns (m, None, h'))
          <-> two_or_three_segments (Source providerCfg) = true)).
Proof.
  intros Hv.
  destruct (two_or_three_segments (Source providerCfg)) eqn:Hshape.
  - pose proof (TerraformResourceID_shaped _ resType resName Hv Hshape) as Hid.
    split_and!; [rewrite Hid; split; discriminate | easy |].
    intros Hs Hr.
    destruct (TerraformProviderExtensions_cases providerCfg resType h)
      as [(? & _) | [(_ & ? & _) | [(_ & _ & ? & _)
         | [(_ & _ & _ & ? & _) | (_ & _ & _ & _ & url & E)]]]];
      try congruence.
    rewrite E. split; split; try discriminate; try easy.
    + intros (m & h' & Hrun). discriminate Hrun.
    + intros _. eauto.
  - pose proof (TerraformResourceID_other _ resType resName Hv Hshape) as Hid.
    split_and!; [rewrite Hid; easy | rewrite Hid; split; discriminate |].
    intros Hs Hr.
    rewrite (TerraformProviderExtensions_other _ _ h Hv Hs Hr Hshape).
    split; split; try discriminate; try easy.
    + intros _. eauto.
    + intros (m & h' & Hrun). discriminate Hrun.
Qed.

Lemma invalid_source_iff_segment_count_witness :
  snd (TerraformResourceID
         {| Source := "/aws"; Version := "5.0.0"; ProviderMeta := None |}
         "aws_s3_bucket" "b") = None
  /\ snd (TerraformResourceID
            {| Source := "hashicorp"; Version := "5.0.0"; ProviderMeta := None |}
            "aws_s3_bucket" "b")
     = Some (ErrInvalidProviderSource "hashicorp")
  /\ exists m h',
      TerraformProviderExtensions
        {| Source := "a/b/c/d"; Version := "5.0.0"; ProviderMeta := None |}
        "aws_s3_bucket" ∅
      = Returns (m, Some (ErrInvalidProviderSource "a/b/c/d"), h').
Proof.
  split_and!.
  - apply (proj1 (proj2 (invalid_source_iff_segment_count
                    {| Source := "/aws"; Version := "5.0.0";
                       ProviderMeta := None |}
                    "aws_s3_bucket" "b" ∅ ltac:(discriminate)))).
    reflexivity.
  - apply (proj1 (invalid_source_iff_segment_count
                    {| Source := "hashicorp"; Version := "5.0.0";
                       ProviderMeta := None |}
                    "aws_s3_bucket" "b" ∅ ltac:(discriminate))).
    reflexivity.
  - apply (proj1 (proj2 (proj2 (invalid_source_iff_segment_count
                    {| Source := "a/b/c/d"; Version := "5.0.0";
                       ProviderMeta := None |}
                    "aws_s3_bucket" "b" ∅ ltac:(discriminate)))
                    ltac:(discriminate) ltac:(discriminate))).
    reflexivity.
Defined.

(** C3. With a version that is not empty and a source of two segments
    (namespace, name) or three (host, namespace, name), the identifier is
    namespace:name:resType:resName.  Neither host nor version takes part:
    configurations that differ only in the host, or only in the version,
    have the same identifier. *)
Theorem TerraformResourceID_grammar
    (providerCfg : ProviderConfig) (resType resName : string) :
  Version providerCfg <> "" ->
  (forall providerNamespace providerName,
      strings.Split (Source providerCfg) "/" = [providerNamespace; providerName] ->
      TerraformResourceID providerCfg resType resName
      = (providerNamespace +:+ ":" +:+ providerName +:+ ":" +:+ resType
           +:+ ":" +:+ resName, None))
  /\ (forall host providerNamespace providerName,
         strings.Split (Source providerCfg) "/"
         = [host; providerNamespace; providerName] ->
         TerraformResourceID providerCfg resType resName
         = (providerNamespace +:+ ":" +:+ providerName +:+ ":" +:+ resType
              +:+ ":" +:+ resName, None)
         /\ forall other host',
             Version other <> "" ->
             strings.Split (Source other) "/"
             = [host'; providerNamespace; providerName] ->
             TerraformResourceID other resType resName
             = TerraformResourceID providerCfg resType resName)
  /\ (forall other,
         Version other <> "" -> Source other = Source providerCfg ->
         TerraformResourceID other resType resName
         = TerraformResourceID providerCfg resType resName).
Proof.
  intros Hv. split_and!.
  - intros ns name Hsplit. now apply TerraformResourceID_two.
  - intros host ns name Hsplit. split.
    + now apply (TerraformResourceID_three _ _ _ Hv host).
    + intros other host' Hv' Hsplit'.
      rewrite (TerraformResourceID_three _ _ _ Hv host ns name Hsplit).
      now apply (TerraformResourceID_three _ _ _ Hv' host').
  - intros other Hv' Hsrc. unfold TerraformResourceID.
    now rewrite (eqb_empty_false _ Hv), (eqb_empty_false _ Hv'), Hsrc.
Qed.

Lemma TerraformResourceID_grammar_witness :
  TerraformResourceID
    {| Source := "hashicorp/aws"; Version := "5.0.0"; ProviderMeta := None |}
    "aws_s3_bucket" "b"
  = ("hashicorp:aws:aws_s3_bucket:b", None)
  /\ TerraformResourceID
       {| Source := "registry.customized.io/hashicorp/aws"; Version := "5.0.0";
          ProviderMeta := None |}
       "aws_s3_bucket" "b"
     = ("hashicorp:aws:aws_s3_bucket:b", None)
  /\ TerraformResourceID
       {| Source := "registry.terraform.io/hashicorp/aws"; Version := "5.0.0";
          ProviderMeta := None |}
       "aws_s3_bucket" "b"
     = TerraformResourceID
         {| Source := "registry.customized.io/hashicorp/aws"; Version := "5.0.0";
            ProviderMeta := None |}
         "aws_s3_bucket" "b"
  /\ TerraformResourceID
       {| Source := "hashicorp/aws"; Version := "4.67.0"; ProviderMeta := None |}
       "aws_s3_bucket" "b"
     = TerraformResourceID
         {| Source := "hashicorp/aws"; Version := "5.0.0"; ProviderMeta := None |}
         "aws_s3_bucket" "b".
Proof.
  split_and!.
  - apply (proj1 (TerraformResourceID_grammar
                    {| Source := "hashicorp/aws"; Version := "5.0.0";
                       ProviderMeta := None |}
                    "aws_s3_bucket" "b" ltac:(discriminate)) "hashicorp" "aws").
    reflexivity.
  - apply (proj1 (proj1 (proj2 (TerraformResourceID_grammar
                    {| Source := "registry.customized.io/hashicorp/aws";
                       Version := "5.0.0"; ProviderMeta := None |}
                    "aws_s3_bucket" "b" ltac:(discriminate)))
                    "registry.customized.io" "hashicorp" "aws" eq_refl)).
  - apply (proj2 (proj1 (proj2 (TerraformResourceID_grammar
                    {| Source := "registry.customized.io/hashicorp/aws";
                       Version := "5.0.0"; ProviderMeta := None |}
                    "aws_s3_bucket" "b" ltac:(discriminate)))
                    "registry.customized.io" "hashicorp" "aws" eq_refl)
             {| Source := "registry.terraform.io/hashicorp/aws";
                Version := "5.0.0"; ProviderMeta := None |}
             "registry.terraform.io");
      [discriminate | reflexivity].
  - apply (proj2 (proj2 (TerraformResourceID_grammar
                    {| Source := "hashicorp/aws"; Version := "5.0.0";
                       ProviderMeta := None |}
                    "aws_s3_bucket" "b" ltac:(discriminate)))
             {| Source := "hashicorp/aws"; Version := "4.67.0";
                ProviderMeta := None |});
      [discriminate | reflexivity].
Defined.

(** ** Wrapping a Terraform resource *)

(** C8. [WrapTFResourceToKusionResource] fails exactly when
    [TerraformProviderExtensions] fails on the same configuration and
    resource type, with that error and no record; when the extensions are
    computed it returns the record of type Terraform with the given
    identifier, attributes and dependencies and those extensions. *)
Theorem WrapTFResourceToKusionResource_follows_extensions
    (providerCfg : ProviderConfig) (resType resourceID : string)
    (attributes : mapref) (dependsOn : option (list string)) (h : heap) :
  exists extensions err h',
    TerraformProviderExtensions providerCfg resType h
    = Returns (extensions, err, h')
    /\ WrapTFResourceToKusionResource providerCfg resType resourceID
         attributes dependsOn h
       = Returns
           (match err with
            | Some e => (None, Some e)
            | None =>
                (Some {| ID := resourceID;
                         Type_ := Terraform;
                         Attributes := attributes;
                         DependsOn := dependsOn;
                         Extensions := extensions |}, None)
            end, h').
Proof.
  unfold WrapTFResourceToKusionResource, mbind, Go_bind, bind.
  destruct (TerraformProviderExtensions_cases providerCfg resType h)
    as [(_ & E) | [(_ & _ & E) | [(_ & _ & _ & E)
       | [(_ & _ & _ & _ & E) | (_ & _ & _ & _ & url & E)]]]];
    rewrite E; eexists _, _, _; (split; [reflexivity|]); reflexivity.
Qed.

(** ** The region of a provider *)

Lemma TerraformProviderRegion_unfold (providerCfg : ProviderConfig) (h : heap) :
  TerraformProviderRegion providerCfg h
  = match entry h (ProviderMeta providerCfg) "region" with
    | None => Returns ("", h)
    | Some (VString s) => Returns (s, h)
    | Some _ => Panics TypeAssertionError
    end.
Proof.
  unfold TerraformProviderRegion, mbind, Go_bind, bind, map_index.
  destruct (entry h (ProviderMeta providerCfg) "region") as [[]|]; reflexivity.
Qed.

(** C9, as stated, fails in its last part: the empty string is also what the
    helper returns for a region that is present and is the empty string. *)
Lemma TerraformProviderRegion_empty_counterexample :
  ~ (forall providerCfg (h : heap),
        TerraformProviderRegion providerCfg h = Returns ("", h) ->
        entry h (ProviderMeta providerCfg) "region" = None).
Proof.
  intros H.
  specialize (H {| Source := "hashicorp/aws"; Version := "5.0.0";
                   ProviderMeta := Some 1%positive |}
                {[ 1%positive := {[ "region" := VString "" ]} ]} eq_refl).
  vm_compute in H. discriminate H.
Qed.

(** C9, amended. A "region" entry that is not a string makes the helper
    panic on its type assertion, with no value and no error; an absent
    entry gives the empty string; and the empty string is returned only
    when the entry is absent or is itself the empty string. *)
Theorem TerraformProviderRegion_outcomes (providerCfg : ProviderConfig) (h : heap) :
  (forall v,
      entry h (ProviderMeta providerCfg) "region" = Some v ->
      (forall s, v <> VString s) ->
      TerraformProviderRegion providerCfg h = Panics TypeAssertionError)
  /\ (entry h (ProviderMeta providerCfg) "region" = None ->
      TerraformProviderRegion providerCfg h = Returns ("", h))
  /\ (forall h',
         TerraformProviderRegion providerCfg h = Returns ("", h') ->
         entry h (ProviderMeta providerCfg) "region" = None
         \/ entry h (ProviderMeta providerCfg) "region" = Some (VString "")).
Proof.
  rewrite TerraformProviderRegion_unfold. split_and!.
  - intros v -> Hv. destruct v; try reflexivity. now destruct (Hv s).
  - now intros ->.
  - intros h'.
    destruct (entry h (ProviderMeta providerCfg) "region") as [[]|];
      try discriminate; [|now left].
    intros [= -> _]. now right.
Qed.

Lemma TerraformProviderRegion_outcomes_witness :
  TerraformProviderRegion
    {| Source := "hashicorp/aws"; Version := "5.0.0";
       ProviderMeta := Some 1%positive |}
    {[ 1%positive := {[ "region" := VInt 1 ]} ]}
  = Panics TypeAssertionError
  /\ TerraformProviderRegion
       {| Source := "hashicorp/aws"; Version := "5.0.0";
          ProviderMeta := Some 1%positive |}
       {[ 1%positive := {[ "profile" := VString "dev" ]} ]}
     = Returns ("", {[ 1%positive := {[ "profile" := VString "dev" ]} ]})
  /\ (entry {[ 1%positive := {[ "region" := VString "" ]} ]}
            (Some 1%positive) "region" = None
      \/ entry {[ 1%positive := {[ "region" := VString "" ]} ]}
               (Some 1%positive) "region" = Some (VString "")).
Proof.
  split_and!.
  - apply (proj1 (TerraformProviderRegion_outcomes
                    {| Source := "hashicorp/aws"; Version := "5.0.0";
                       ProviderMeta := Some 1%positive |}
                    {[ 1%positive := {[ "region" := VInt 1 ]} ]})
             (VInt 1));
      [reflexivity | discriminate].
  - apply (proj1 (proj2 (TerraformProviderRegion_outcomes
                    {| Source := "hashicorp/aws"; Version := "5.0.0";
                       ProviderMeta := Some 1%positive |}
                    {[ 1%positive := {[ "profile" := VString "dev" ]} ]}))).
    reflexivity.
  - apply (proj2 (proj2 (TerraformProviderRegion_outcomes
                    {| Source := "hashicorp/aws"; Version := "5.0.0";
                       ProviderMeta := Some 1%positive |}
                    {[ 1%positive := {[ "region" := VString "" ]} ]}))
             {[ 1%positive := {[ "region" := VString "" ]} ]}).
    reflexivity.
Defined.

(** ** Wrapping a Kubernetes object *)

(** C10. An argument that is no [runtime.Object] makes the helper panic on
    its type assertion before any error can be returned, so an error, the
    conversion error included, is returned only for arguments that are
    [runtime.Object]s. *)
Theorem WrapK8sResourceToKusionResource_assertion
    `{Runtime GoValue} (id : string) (resource : GoValue) (h : heap) :
  (assert_RuntimeObject resource = None ->
   WrapK8sResourceToKusionResource id resource h = Panics TypeAssertionError)
  /\ (forall rec e h',
         WrapK8sResourceToKusionResource id resource h
         = Returns (rec, Some e, h') ->
         is_Some (assert_RuntimeObject resource)).
Proof.
  unfold WrapK8sResourceToKusionResource. split.
  - now intros ->.
  - intros rec e h'.
    destruct (assert_RuntimeObject resource); [eauto | discriminate].
Qed.

Lemma WrapK8sResourceToKusionResource_assertion_witness :
  WrapK8sResourceToKusionResource "v1:Namespace:nginx" (SampleInt 7) ∅
  = Panics TypeAssertionError
  /\ is_Some (assert_RuntimeObject
                (SampleObject {| APIVersion := "v1"; Kind := "" |})).
Proof.
  split.
  - apply (proj1 (WrapK8sResourceToKusionResource_assertion
                    "v1:Namespace:nginx" (SampleInt 7) ∅)).
    reflexivity.
  - apply (proj2 (WrapK8sResourceToKusionResource_assertion
                    "v1:Namespace:nginx"
                    (SampleObject {| APIVersion := "v1"; Kind := "" |}) ∅)
             None (ErrorString "Object 'Kind' is missing") ∅).
    reflexivity.
Defined.

(** * Further properties of the helpers *)

(** ** More on splitting and joining *)

Section split_join.
Import strings.

Lemma Join_cons_char (c : ascii) (seg : string) (segs : list string) (sep : string) :
  Join (String c seg :: segs) sep = String c (Join (seg :: segs) sep).
Proof. destruct segs; reflexivity. Qed.

(** Joining the segments of a string with the separator gives it back. *)
Lemma Join_Split (s : string) (sep : ascii) :
  Join (Split s sep) (String sep "") = s.
Proof.
  induction s as [|c s IH]; [reflexivity|]. simpl.
  destruct (Ascii.eqb_spec c sep) as [-> | _].
  - destruct (Split s sep) as [|seg segs] eqn:E.
    + now destruct (Split_not_nil s sep).
    + change (Join ("" :: seg :: segs) (String sep ""))
        with (String sep (Join (seg :: segs) (String sep ""))).
      now rewrite IH.
  - destruct (Split s sep) as [|seg segs] eqn:E.
    + now destruct (Split_not_nil s sep).
    + now rewrite Join_cons_char, IH.
Qed.

Lemma Split_inj (s t : string) (sep : ascii) :
  Split s sep = Split t sep -> s = t.
Proof.
  intros H. rewrite <- (Join_Split s sep), <- (Join_Split t sep). now rewrite H.
Qed.

(** No segment of a split holds the separator. *)
Lemma Split_segments (s : string) (sep : ascii) :
  Forall (fun seg => Count seg sep = 0) (Split s sep).
Proof.
  induction s as [|c s IH]; simpl; [repeat constructor|].
  destruct (Ascii.eqb c sep) eqn:Ec; [constructor; [reflexivity | exact IH]|].
  destruct (Split s sep) as [|seg segs]; [repeat constructor; simpl; now rewrite Ec|].
  inversion IH as [|? ? Hseg Hsegs]; subst.
  constructor; [simpl; now rewrite Ec | exact Hsegs].
Qed.

(** Two strings cut at the first separator are equal only piece by piece. *)
Lemma append_sep_inj (a a' b b' : string) (sep : ascii) :
  Count a sep = 0 -> Count a' sep = 0 ->
  a +:+ String sep b = a' +:+ String sep b' -> a = a' /\ b = b'.
Proof.
  intros Ha Ha' Heq.
  apply (f_equal (fun s => Split s sep)) in Heq.
  rewrite !Split_app in Heq by assumption.
  injection Heq as -> Hb. split; [reflexivity | now apply (Split_inj _ _ sep)].
Qed.

Lemma Split_app_sep (a b : string) (sep : ascii) :
  Count a sep = 0 ->
  Split (a +:+ String sep "" +:+ b) sep = a :: Split b sep.
Proof. apply Split_app. Qed.

Lemma append_sep_inj' (a a' b b' : string) (sep : ascii) :
  Count a sep = 0 -> Count a' sep = 0 ->
  a +:+ String sep "" +:+ b = a' +:+ String sep "" +:+ b' -> a = a' /\ b = b'.
Proof. apply append_sep_inj. Qed.

Lemma two_or_three_segments_nonempty (source : string) :
  two_or_three_segments source = true -> source <> "".
Proof. intros H ->. discriminate H. Qed.

End split_join.

(** ** Identifiers tell resources apart *)

(** The segments of a Kubernetes identifier: type, then the namespace when
    there is one, then the segments of the name. *)
Lemma KubernetesResourceID_split (typeMeta : TypeMeta) (objectMeta : ObjectMeta) :
  strings.Count (APIVersion typeMeta) ":" = 0 ->
  strings.Count (Kind typeMeta) ":" = 0 ->
  strings.Count (Namespace objectMeta) ":" = 0 ->
  strings.Split (KubernetesResourceID typeMeta objectMeta) ":"
  = APIVersion typeMeta :: Kind typeMeta
      :: (if String.eqb (Namespace objectMeta) "" then []
          else [Namespace objectMeta])
      ++ strings.Split (Name objectMeta) ":".
Proof.
  intros Ha Hk Hn.
  destruct (String.eqb_spec (Namespace objectMeta) "") as [Hns | Hns].
  - rewrite (KubernetesResourceID_cluster_scoped _ _ Hns), Join_three.
    now rewrite !Split_app_sep.
  - rewrite (KubernetesResourceID_namespaced _ _ Hns), Join_four.
    now rewrite !Split_app_sep.
Qed.

(** X1. Objects whose apiVersion, kind, namespace and name hold no colon
    have equal identifiers only when they agree on all four: the identifier
    tells them apart, cluster-scoped objects from namespaced ones too. *)
Theorem KubernetesResourceID_injective
    (typeMeta typeMeta' : TypeMeta) (objectMeta objectMeta' : ObjectMeta) :
  strings.Contains (APIVersion typeMeta) ":" = false ->
  strings.Contains (Kind typeMeta) ":" = false ->
  strings.Contains (Namespace objectMeta) ":" = false ->
  strings.Contains (Name objectMeta) ":" = false ->
  strings.Contains (APIVersion typeMeta') ":" = false ->
  strings.Contains (Kind typeMeta') ":" = false ->
  strings.Contains (Namespace objectMeta') ":" = false ->
  strings.Contains (Name objectMeta') ":" = false ->
  KubernetesResourceID typeMeta objectMeta
  = KubernetesResourceID typeMeta' objectMeta' ->
  typeMeta = typeMeta' /\ objectMeta = objectMeta'.
Proof.
  intros Ha%Contains_false Hk%Contains_false Hn%Contains_false
         Hm%Contains_false Ha'%Contains_false Hk'%Contains_false
         Hn'%Contains_false Hm'%Contains_false Heq.
  apply (f_equal (fun s => strings.Split s ":")) in Heq.
  rewrite !KubernetesResourceID_split in Heq by assumption.
  rewrite (Split_no_sep _ _ Hm), (Split_no_sep _ _ Hm') in Heq.
  destruct typeMeta as [a k], typeMeta' as [a' k'],
           objectMeta as [ns n], objectMeta' as [ns' n']; simpl in *.
  destruct (String.eqb_spec ns "") as [-> | Hns],
           (String.eqb_spec ns' "") as [-> | Hns'];
    simpl in Heq; try discriminate Heq; injection Heq; intros; subst;
    split; reflexivity.
Qed.

Lemma KubernetesResourceID_injective_witness :
  {| APIVersion := "apps/v1"; Kind := "Deployment" |}
  = {| APIVersion := "apps/v1"; Kind := "Deployment" |}
  /\ {| Namespace := "nginx"; Name := "nginx-deployment" |}
     = {| Namespace := "nginx"; Name := "nginx-deployment" |}.
Proof.
  apply (KubernetesResourceID_injective
           {| APIVersion := "apps/v1"; Kind := "Deployment" |}
           {| APIVersion := "apps/v1"; Kind := "Deployment" |}
           {| Namespace := "nginx"; Name := "nginx-deployment" |}
           {| Namespace := "nginx"; Name := "nginx-deployment" |});
    reflexivity.
Defined.

(** X2. Without that proviso the identifier is ambiguous in one way only as
    far as the name goes: for colon-free apiVersion, kind and namespace, a
    namespaced object and a cluster-scoped one have the same identifier
    exactly when the name of the second is the namespace of the first, a
    colon and its name. *)
Theorem KubernetesResourceID_scope_clash
    (typeMeta : TypeMeta) (objectMeta objectMeta' : ObjectMeta) :
  strings.Contains (APIVersion typeMeta) ":" = false ->
  strings.Contains (Kind typeMeta) ":" = false ->
  strings.Contains (Namespace objectMeta) ":" = false ->
  Namespace objectMeta <> "" ->
  Namespace objectMeta' = "" ->
  (KubernetesResourceID typeMeta objectMeta
   = KubernetesResourceID typeMeta objectMeta'
   <-> Name objectMeta' = Namespace objectMeta +:+ ":" +:+ Name objectMeta).
Proof.
  intros Ha%Contains_false Hk%Contains_false Hn%Contains_false Hns Hns'.
  rewrite (KubernetesResourceID_namespaced _ _ Hns),
          (KubernetesResourceID_cluster_scoped _ _ Hns'),
          Join_four, Join_three.
  split.
  - intros Heq.
    apply (append_sep_inj' _ _ _ _ ":" Ha Ha) in Heq as [_ Heq].
    apply (append_sep_inj' _ _ _ _ ":" Hk Hk) in Heq as [_ Heq].
    now symmetry.
  - now intros ->.
Qed.

Lemma KubernetesResourceID_scope_clash_witness :
  KubernetesResourceID {| APIVersion := "v1"; Kind := "ConfigMap" |}
                       {| Namespace := "system"; Name := "node" |}
  = KubernetesResourceID {| APIVersion := "v1"; Kind := "ConfigMap" |}
                         {| Namespace := ""; Name := "system:node" |}.
Proof.
  apply (proj2 (KubernetesResourceID_scope_clash
                  {| APIVersion := "v1"; Kind := "ConfigMap" |}
                  {| Namespace := "system"; Name := "node" |}
                  {| Namespace := ""; Name := "system:node" |}
                  eq_refl eq_refl eq_refl ltac:(discriminate) eq_refl)).
  reflexivity.
Defined.

(** X3. [UniqueAppName] tells applications apart when project and stack
    names hold no hyphen, whatever the application names are. *)
Theorem UniqueAppName_injective
    (projectName stackName appName projectName' stackName' appName' : string) :
  strings.Contains projectName "-" = false ->
  strings.Contains stackName "-" = false ->
  strings.Contains projectName' "-" = false ->
  strings.Contains stackName' "-" = false ->
  UniqueAppName projectName stackName appName
  = UniqueAppName projectName' stackName' appName' ->
  projectName = projectName' /\ stackName = stackName' /\ appName = appName'.
Proof.
  intros Hp%Contains_false Hs%Contains_false Hp'%Contains_false
         Hs'%Contains_false Heq.
  unfold UniqueAppName in Heq.
  apply (append_sep_inj' _ _ _ _ "-" Hp Hp') in Heq as [-> Heq].
  apply (append_sep_inj' _ _ _ _ "-" Hs Hs') in Heq as [-> ->].
  auto.
Qed.

Lemma UniqueAppName_injective_witness :
  "proj" = "proj" /\ "dev" = "dev" /\ "web-api" = "web-api".
Proof.
  apply (UniqueAppName_injective "proj" "dev" "web-api" "proj" "dev" "web-api");
    reflexivity.
Defined.

(** X4. A hyphen in the project name can be moved to the stack name: the
    application name is the same for the project p-s with stack t as for
    the project p with stack s-t. *)
Theorem UniqueAppName_hyphen_clash (p s t appName : string) :
  UniqueAppName (p +:+ "-" +:+ s) t appName
  = UniqueAppName p (s +:+ "-" +:+ t) appName.
Proof. unfold UniqueAppName. now rewrite !append_assoc. Qed.

(** X5. The labels of an application are exactly the two fixed keys, bound
    to the project and to the application; equal labels mean equal project
    and application. *)
Theorem UniqueAppLabels_entries (projectName appName : string) :
  dom (UniqueAppLabels projectName appName)
  = {[ "app.kubernetes.io/part-of"; "app.kubernetes.io/name" ]}
  /\ size (UniqueAppLabels projectName appName) = 2
  /\ UniqueAppLabels projectName appName !! "app.kubernetes.io/part-of"
     = Some projectName
  /\ UniqueAppLabels projectName appName !! "app.kubernetes.io/name"
     = Some appName
  /\ forall projectName' appName',
      UniqueAppLabels projectName appName
      = UniqueAppLabels projectName' appName' ->
      projectName = projectName' /\ appName = appName'.
Proof.
  assert (Hpart : forall p a,
    UniqueAppLabels p a !! "app.kubernetes.io/part-of" = Some p).
  { intros p a. unfold UniqueAppLabels. simpl. now rewrite lookup_insert_eq. }
  assert (Hname : forall p a,
    UniqueAppLabels p a !! "app.kubernetes.io/name" = Some a).
  { intros p a. unfold UniqueAppLabels. simpl.
    rewrite lookup_insert_ne by discriminate. now rewrite lookup_insert_eq. }
  split_and!.
  - unfold UniqueAppLabels. simpl. rewrite !dom_insert_L, dom_empty_L.
    set_solver.
  - unfold UniqueAppLabels. simpl.
    rewrite map_size_insert_None.
    + now rewrite map_size_insert_None, map_size_empty.
    + rewrite lookup_insert_ne by discriminate. apply lookup_empty.
  - apply Hpart.
  - apply Hname.
  - intros p' a' Heq. split.
    + pose proof (Hpart projectName appName) as H1.
      rewrite Heq, Hpart in H1. congruence.
    + pose proof (Hname projectName appName) as H1.
      rewrite Heq, Hname in H1. congruence.
Qed.

(** ** Terraform identifiers, further *)

(** The ways [TerraformResourceID] ends. *)
Lemma TerraformResourceID_cases (providerCfg : ProviderConfig)
    (resType resName : string) :
  (Version providerCfg = ""
   /\ TerraformResourceID providerCfg resType resName
      = ("", Some ErrEmptyTFProviderVersion))
  \/ (Version providerCfg <> ""
      /\ two_or_three_segments (Source providerCfg) = false
      /\ TerraformResourceID providerCfg resType resName
         = ("", Some (ErrInvalidProviderSource (Source providerCfg))))
  \/ (Version providerCfg <> ""
      /\ two_or_three_segments (Source providerCfg) = true
      /\ exists providerNamespace providerName,
          TerraformResourceID providerCfg resType resName
          = (providerNamespace +:+ ":" +:+ providerName +:+ ":" +:+ resType
               +:+ ":" +:+ resName, None)).
Proof.
  destruct (String.eqb_spec (Version providerCfg) "") as [Hv | Hv].
  { left. split; [assumption|]. unfold TerraformResourceID. now rewrite Hv. }
  right. destruct (two_or_three_segments (Source providerCfg)) eqn:Hshape.
  - right. split_and!; try done.
    unfold two_or_three_segments in Hshape.
    unfold TerraformResourceID. rewrite (eqb_empty_false _ Hv).
    destruct (Nat.eqb _ 3); [eexists _, _; reflexivity|].
    destruct (Nat.eqb _ 2); [eexists _, _; reflexivity | discriminate].
  - left. split_and!; try done. now apply TerraformResourceID_other.
Qed.

(** X6. [TerraformResourceID] succeeds exactly when the version is not
    empty and the source has two or three segments; an empty version is
    reported first, whatever the source; and a failure comes with the
    empty identifier. *)
Theorem TerraformResourceID_success_iff (providerCfg : ProviderConfig)
    (resType resName : string) :
  (snd (TerraformResourceID providerCfg resType resName) = None
   <-> Version providerCfg <> ""
       /\ two_or_three_segments (Source providerCfg) = true)
  /\ (Version providerCfg = "" ->
      TerraformResourceID providerCfg resType resName
      = ("", Some ErrEmptyTFProviderVersion))
  /\ (snd (TerraformResourceID providerCfg resType resName) <> None ->
      fst (TerraformResourceID providerCfg resType resName) = "").
Proof.
  destruct (TerraformResourceID_cases providerCfg resType resName)
    as [(Hv & E) | [(Hv & Hshape & E) | (Hv & Hshape & ns & name & E)]];
    rewrite E; simpl; split_and!; try split; try done; try congruence.
  - now intros [? _].
  - intros [_ ?]. congruence.
Qed.

Lemma TerraformResourceID_success_iff_witness :
  TerraformResourceID
    {| Source := "not a source"; Version := ""; ProviderMeta := None |} "t" "n"
  = ("", Some ErrEmptyTFProviderVersion)
  /\ fst (TerraformResourceID
            {| Source := "a/b/c/d"; Version := "1"; ProviderMeta := None |}
            "t" "n") = "".
Proof.
  split.
  - apply (proj1 (proj2 (TerraformResourceID_success_iff
                    {| Source := "not a source"; Version := "";
                       ProviderMeta := None |} "t" "n"))).
    reflexivity.
  - apply (proj2 (proj2 (TerraformResourceID_success_iff
                    {| Source := "a/b/c/d"; Version := "1";
                       ProviderMeta := None |} "t" "n"))).
    discriminate.
Defined.

(** X7. For one provider configuration, two resources have the same
    identifier only when they have the same type and the same name, as long
    as the types hold no colon; the names may hold any. *)
Theorem TerraformResourceID_injective (providerCfg : ProviderConfig)
    (resType resName resType' resName' : string) :
  strings.Contains resType ":" = false ->
  strings.Contains resType' ":" = false ->
  snd (TerraformResourceID providerCfg resType resName) = None ->
  TerraformResourceID providerCfg resType resName
  = TerraformResourceID providerCfg resType' resName' ->
  resType = resType' /\ resName = resName'.
Proof.
  intros Ht%Contains_false Ht'%Contains_false Hok.
  unfold TerraformResourceID in *.
  destruct (String.eqb (Version providerCfg) ""); [discriminate Hok|].
  destruct (if Nat.eqb _ 3 then _ else _) as [[ns name]|];
    [|discriminate Hok].
  rewrite !Join_four. intros [= Heq].
  apply String.app_inj in Heq. apply String.app_inj in Heq.
  apply String.app_inj in Heq. apply String.app_inj in Heq.
  now apply (append_sep_inj' _ _ _ _ ":" Ht Ht') in Heq.
Qed.

Lemma TerraformResourceID_injective_witness :
  "aws_s3_bucket" = "aws_s3_bucket" /\ "logs:eu" = "logs:eu".
Proof.
  apply (TerraformResourceID_injective
           {| Source := "hashicorp/aws"; Version := "5.0.0";
              ProviderMeta := None |}
           "aws_s3_bucket" "logs:eu" "aws_s3_bucket" "logs:eu");
    reflexivity.
Defined.

(** X8. When provider namespace, provider name, resource type and resource
    name hold no colon, the identifier splits on the colon into exactly
    these four, for a source of two segments and for one of three. *)
Theorem TerraformResourceID_split (providerCfg : ProviderConfig)
    (resType resName : string) (segs : list string)
    (providerNamespace providerName : string) :
  Version providerCfg <> "" ->
  strings.Split (Source providerCfg) "/"
  = (segs ++ [providerNamespace; providerName])%list ->
  List.length segs <= 1 ->
  strings.Contains providerNamespace ":" = false ->
  strings.Contains providerName ":" = false ->
  strings.Contains resType ":" = false ->
  strings.Contains resName ":" = false ->
  strings.Split (fst (TerraformResourceID providerCfg resType resName)) ":"
  = [providerNamespace; providerName; resType; resName].
Proof.
  intros Hv Hsplit Hlen Hns%Contains_false Hname%Contains_false
         Ht%Contains_false Hn%Contains_false.
  destruct segs as [|host [|? ?]]; simpl in *; [| |lia].
  - rewrite (TerraformResourceID_two _ _ _ Hv _ _ Hsplit). simpl.
    rewrite !Split_app_sep by assumption. now rewrite Split_no_sep.
  - rewrite (TerraformResourceID_three _ _ _ Hv _ _ _ Hsplit). simpl.
    rewrite !Split_app_sep by assumption. now rewrite Split_no_sep.
Qed.

Lemma TerraformResourceID_split_witness :
  strings.Split
    (fst (TerraformResourceID
            {| Source := "registry.customized.io/hashicorp/aws";
               Version := "5.0.0"; ProviderMeta := None |}
            "aws_s3_bucket" "b")) ":"
  = ["hashicorp"; "aws"; "aws_s3_bucket"; "b"].
Proof.
  apply (TerraformResourceID_split
           {| Source := "registry.customized.io/hashicorp/aws";
              Version := "5.0.0"; ProviderMeta := None |}
           "aws_s3_bucket" "b" ["registry.customized.io"] "hashicorp" "aws");
    first [discriminate | reflexivity | simpl; lia].
Defined.

(** ** Provider extensions, further *)

Lemma Split_app_all (a b : string) (sep : ascii) :
  strings.Split (a +:+ String sep "" +:+ b) sep
  = (strings.Split a sep ++ strings.Split b sep)%list.
Proof.
  change (a +:+ String sep "" +:+ b) with (a +:+ String sep b).
  induction a as [|c a IH]; rewrite ?append_nil, ?append_cons; simpl.
  - now rewrite Ascii.eqb_refl.
  - destruct (Ascii.eqb c sep); [now rewrite IH|].
    rewrite IH. destruct (strings.Split a sep) as [|seg segs] eqn:E;
      [now destruct (Split_not_nil a sep) | reflexivity].
Qed.

Lemma entry_new_map (h : heap) (l : positive) (entries : gmap string value)
    (m : mapref) (k : string) :
  h !! l = None -> entries !! k = None ->
  entry (<[l := entries]> h) m k = entry h m k.
Proof.
  intros Hfresh Hk. destruct m as [l0|]; [|reflexivity]. unfold entry. simpl.
  destruct (decide (l = l0)) as [<- | Hne].
  - rewrite lookup_insert_eq, Hfresh. simpl. exact Hk.
  - now rewrite lookup_insert_ne.
Qed.

(** X9. With a version that holds no slash, the provider URL of a
    successful call always splits on the slash into four segments: the
    registry host, which is the default host for a source of two segments,
    then the segments of the source, then the version. *)
Theorem TerraformProviderExtensions_url_segments
    (providerCfg : ProviderConfig) (resType : string) (h : heap) :
  Version providerCfg <> "" -> resType <> "" ->
  strings.Contains (Version providerCfg) "/" = false ->
  two_or_three_segments (Source providerCfg) = true ->
  exists m h' providerURL,
    TerraformProviderExtensions providerCfg resType h = Returns (m, None, h')
    /\ entry h' m "provider" = Some (VString providerURL)
    /\ strings.Split providerURL "/"
       = ((if Nat.eqb (List.length (strings.Split (Source providerCfg) "/")) 2
           then [defaultTFHost] else [])
          ++ strings.Split (Source providerCfg) "/"
          ++ [Version providerCfg])%list
    /\ List.length (strings.Split providerURL "/") = 4.
Proof.
  intros Hv Hr Hslash%Contains_false Hshape.
  pose proof (two_or_three_segments_nonempty _ Hshape) as Hs.
  assert (Hentry : forall url : string,
    entry (<[fresh (dom h) :=
               list_to_map [("provider", VString url);
                            ("providerMeta", VMap (ProviderMeta providerCfg));
                            ("resourceType", VString resType)]]> h)
          (Some (fresh (dom h))) "provider" = Some (VString url)).
  { intros url. unfold entry. simpl. rewrite lookup_insert_eq. simpl.
    now rewrite lookup_insert_eq. }
  unfold two_or_three_segments in Hshape.
  apply orb_true_iff in Hshape as [H2%Nat.eqb_eq | H3%Nat.eqb_eq].
  - rewrite (TerraformProviderExtensions_two _ _ h Hv Hs Hr H2).
    eexists _, _, _. split; [reflexivity|]. split; [apply Hentry|].
    change "registry.terraform.io/" with (defaultTFHost +:+ "/").
    rewrite append_assoc, Split_app_sep by reflexivity.
    rewrite Split_app_all, (Split_no_sep _ _ Hslash), H2. simpl.
    split; [reflexivity|]. rewrite length_app, H2. reflexivity.
  - rewrite (TerraformProviderExtensions_three _ _ h Hv Hs Hr H3).
    eexists _, _, _. split; [reflexivity|]. split; [apply Hentry|].
    rewrite Split_app_all, (Split_no_sep _ _ Hslash), H3. simpl.
    split; [reflexivity|]. rewrite length_app, H3. reflexivity.
Qed.

Lemma TerraformProviderExtensions_url_segments_witness :
  exists m h' providerURL,
    TerraformProviderExtensions
      {| Source := "hashicorp/aws"; Version := "5.0.0"; ProviderMeta := None |}
      "aws_s3_bucket" ∅ = Returns (m, None, h')
    /\ entry h' m "provider" = Some (VString providerURL)
    /\ strings.Split providerURL "/"
       = ["registry.terraform.io"; "hashicorp"; "aws"; "5.0.0"]
    /\ List.length (strings.Split providerURL "/") = 4.
Proof.
  apply (TerraformProviderExtensions_url_segments
           {| Source := "hashicorp/aws"; Version := "5.0.0";
              ProviderMeta := None |} "aws_s3_bucket" ∅);
    first [discriminate | reflexivity].
Defined.

(** X10. A failing call returns the nil map, leaves the store as it was,
    and its error is one of the four the helper makes. *)
Theorem TerraformProviderExtensions_failure_clean
    (providerCfg : ProviderConfig) (resType : string) (h h' : heap)
    (m : mapref) (e : error) :
  TerraformProviderExtensions providerCfg resType h = Returns (m, Some e, h') ->
  m = None /\ h' = h
  /\ (e = ErrEmptyTFProviderVersion \/ e = ErrEmptySource
      \/ e = ErrEmptyResourceType
      \/ e = ErrInvalidProviderSource (Source providerCfg)).
Proof.
  intros Hrun.
  destruct (TerraformProviderExtensions_cases providerCfg resType h)
    as [(_ & E) | [(_ & _ & E) | [(_ & _ & _ & E)
       | [(_ & _ & _ & _ & E) | (_ & _ & _ & _ & url & E)]]]];
    rewrite E in Hrun; try discriminate Hrun;
    injection Hrun as <- <- <-; auto 6.
Qed.

Lemma TerraformProviderExtensions_failure_clean_witness :
  (None : mapref) = None
  /\ ({[ 1%positive := {[ "region" := VString "us-east-1" ]} ]} : heap)
     = {[ 1%positive := {[ "region" := VString "us-east-1" ]} ]}
  /\ (ErrInvalidProviderSource "aws" = ErrEmptyTFProviderVersion
      \/ ErrInvalidProviderSource "aws" = ErrEmptySource
      \/ ErrInvalidProviderSource "aws" = ErrEmptyResourceType
      \/ ErrInvalidProviderSource "aws" = ErrInvalidProviderSource "aws").
Proof.
  apply (TerraformProviderExtensions_failure_clean
           {| Source := "aws"; Version := "5.0.0";
              ProviderMeta := Some 1%positive |}
           "aws_s3_bucket"
           {[ 1%positive := {[ "region" := VString "us-east-1" ]} ]}).
  reflexivity.
Defined.

(** X11. Computing the extensions does not change what any provider
    configuration gives as its region: asked after the call, the region
    helper ends as it ended before, with the same string or the same
    panic. *)
Theorem TerraformProviderExtensions_keeps_region
    (providerCfg other : ProviderConfig) (resType : string) (h h' : heap)
    (m : mapref) (err : option error) :
  TerraformProviderExtensions providerCfg resType h = Returns (m, err, h') ->
  TerraformProviderRegion other h'
  = match TerraformProviderRegion other h with
    | Returns (region, _) => Returns (region, h')
    | Panics p => Panics p
    end.
Proof.
  intros Hrun. rewrite !TerraformProviderRegion_unfold.
  assert (Hentry : entry h' (ProviderMeta other) "region"
                   = entry h (ProviderMeta other) "region").
  { destruct (TerraformProviderExtensions_cases providerCfg resType h)
      as [(_ & E) | [(_ & _ & E) | [(_ & _ & _ & E)
         | [(_ & _ & _ & _ & E) | (_ & _ & _ & _ & url & E)]]]];
      rewrite E in Hrun; injection Hrun as <- <- <-; try reflexivity.
    apply entry_new_map; [apply fresh_map_not_in_store|].
    simpl. now rewrite !lookup_insert_ne by discriminate. }
  rewrite Hentry.
  destruct (entry h (ProviderMeta other) "region") as [[]|]; reflexivity.
Qed.

Lemma TerraformProviderExtensions_keeps_region_witness :
  TerraformProviderRegion
    {| Source := "hashicorp/aws"; Version := "5.0.0";
       ProviderMeta := Some 1%positive |}
    (<[ 2%positive :=
          list_to_map
            [("provider", VString "registry.terraform.io/hashicorp/aws/5.0.0");
             ("providerMeta", VMap (Some 1%positive));
             ("resourceType", VString "aws_s3_bucket")] ]>
       ({[ 1%positive := {[ "region" := VString "us-east-1" ]} ]} : heap))
  = match
      TerraformProviderRegion
        {| Source := "hashicorp/aws"; Version := "5.0.0";
       ProviderMeta := Some 1%positive |}
        {[ 1%positive := {[ "region" := VString "us-east-1" ]} ]}
    with
    | Returns (region, _) =>
        Returns
          (region,
           (<[ 2%positive :=
          list_to_map
            [("provider", VString "registry.terraform.io/hashicorp/aws/5.0.0");
             ("providerMeta", VMap (Some 1%positive));
             ("resourceType", VString "aws_s3_bucket")] ]>
       ({[ 1%positive := {[ "region" := VString "us-east-1" ]} ]} : heap)))
    | Panics p => Panics p
    end.
Proof.
  apply (TerraformProviderExtensions_keeps_region
           {| Source := "hashicorp/aws"; Version := "5.0.0";
       ProviderMeta := Some 1%positive |}
           {| Source := "hashicorp/aws"; Version := "5.0.0";
       ProviderMeta := Some 1%positive |}
           "aws_s3_bucket"
           {[ 1%positive := {[ "region" := VString "us-east-1" ]} ]}
           (<[ 2%positive :=
          list_to_map
            [("provider", VString "registry.terraform.io/hashicorp/aws/5.0.0");
             ("providerMeta", VMap (Some 1%positive));
             ("resourceType", VString "aws_s3_bucket")] ]>
       ({[ 1%positive := {[ "region" := VString "us-east-1" ]} ]} : heap))
           (Some 2%positive) None).
  vm_compute. reflexivity.
Defined.

(** X12. The region helper never changes the store, and it returns a
    string exactly when the "region" entry is that string, or is absent and
    the string is empty. *)
Theorem TerraformProviderRegion_returns (providerCfg : ProviderConfig)
    (h h' : heap) (region : string) :
  TerraformProviderRegion providerCfg h = Returns (region, h')
  <-> h' = h
      /\ (entry h (ProviderMeta providerCfg) "region" = Some (VString region)
          \/ (entry h (ProviderMeta providerCfg) "region" = None
              /\ region = "")).
Proof.
  rewrite TerraformProviderRegion_unfold.
  destruct (entry h (ProviderMeta providerCfg) "region") as [[]|]; split;
    try discriminate; try (intros [= <- <-]; auto);
    try (intros [_ [[=] | [[=] _]]]; fail).
  - intros [-> [[= ->] | [[=] _]]]. reflexivity.
  - intros [-> [[=] | [_ ->]]]. reflexivity.
Qed.

(** X13. For an empty source and a version that is not empty the two
    helpers disagree on the error: the identifier helper reports an invalid
    source, the extensions helper an empty one. *)
Theorem empty_source_errors (providerCfg : ProviderConfig)
    (resType resName : string) (h : heap) :
  Version providerCfg <> "" -> Source providerCfg = "" ->
  TerraformResourceID providerCfg resType resName
  = ("", Some (ErrInvalidProviderSource ""))
  /\ TerraformProviderExtensions providerCfg resType h
     = Returns (None, Some ErrEmptySource, h)
  /\ ErrInvalidProviderSource "" <> ErrEmptySource.
Proof.
  intros Hv Hs. split_and!.
  - rewrite <- Hs at 2. apply TerraformResourceID_other; [assumption|].
    now rewrite Hs.
  - unfold TerraformProviderExtensions.
    rewrite (eqb_empty_false _ Hv). now rewrite Hs.
  - discriminate.
Qed.

Lemma empty_source_errors_witness :
  TerraformResourceID
    {| Source := ""; Version := "5.0.0"; ProviderMeta := None |} "t" "n"
  = ("", Some (ErrInvalidProviderSource ""))
  /\ TerraformProviderExtensions
       {| Source := ""; Version := "5.0.0"; ProviderMeta := None |} "t" ∅
     = Returns (None, Some ErrEmptySource, ∅)
  /\ ErrInvalidProviderSource "" <> ErrEmptySource.
Proof.
  apply (empty_source_errors
           {| Source := ""; Version := "5.0.0"; ProviderMeta := None |}
           "t" "n" ∅);
    [discriminate | reflexivity].
Defined.

(** ** Wrapping, further *)

(** X14. For a resource type that is not empty, a resource can be wrapped
    exactly when it can be given an identifier: [WrapTFResourceToKusionResource]
    returns a record if and only if [TerraformResourceID] succeeds for the
    same configuration. *)
Theorem WrapTFResourceToKusionResource_iff_identifier
    (providerCfg : ProviderConfig) (resType resName resourceID : string)
    (attributes : mapref) (dependsOn : option (list string)) (h : heap) :
  resType <> "" ->
  ((exists rec h',
       WrapTFResourceToKusionResource providerCfg resType resourceID
         attributes dependsOn h = Returns (Some rec, None, h'))
   <-> snd (TerraformResourceID providerCfg resType resName) = None).
Proof.
  intros Hr.
  unfold WrapTFResourceToKusionResource, mbind, Go_bind, bind.
  destruct (TerraformProviderExtensions_cases providerCfg resType h)
    as [(Hv & E) | [(Hv & Hs & E) | [(Hv & Hs & ? & E)
       | [(Hv & Hs & _ & Hshape & E) | (Hv & Hs & _ & Hshape & url & E)]]]];
    try contradiction; rewrite E.
  - unfold TerraformResourceID. rewrite Hv. simpl.
    split; [intros (? & ? & [=]) | discriminate].
  - rewrite TerraformResourceID_other; [|assumption|now rewrite Hs].
    split; [intros (? & ? & [=]) | discriminate].
  - rewrite TerraformResourceID_other by assumption.
    split; [intros (? & ? & [=]) | discriminate].
  - rewrite TerraformResourceID_shaped by assumption.
    split; [reflexivity | intros _; eauto].
Qed.

Lemma WrapTFResourceToKusionResource_iff_identifier_witness :
  exists rec h',
    WrapTFResourceToKusionResource
      {| Source := "hashicorp/aws"; Version := "5.0.0"; ProviderMeta := None |}
      "aws_s3_bucket" "hashicorp:aws:aws_s3_bucket:b" None None ∅
    = Returns (Some rec, None, h').
Proof.
  apply (proj2 (WrapTFResourceToKusionResource_iff_identifier
                  {| Source := "hashicorp/aws"; Version := "5.0.0";
                     ProviderMeta := None |}
                  "aws_s3_bucket" "b" "hashicorp:aws:aws_s3_bucket:b"
                  None None ∅ ltac:(discriminate))).
  reflexivity.
Defined.

(** X15. The wrapper never panics and returns a record or an error, never
    both and never neither.  With an error the store is as it was.  With a
    record, its extensions are a map object that was not in the store
    before, so it is none of the maps the caller holds, the attributes and
    the provider's metadata among them, and those are left as they were. *)
Theorem WrapTFResourceToKusionResource_result
    (providerCfg : ProviderConfig) (resType resourceID : string)
    (attributes : mapref) (dependsOn : option (list string)) (h : heap) :
  exists rec err h',
    WrapTFResourceToKusionResource providerCfg resType resourceID
      attributes dependsOn h = Returns (rec, err, h')
    /\ (is_Some rec <-> err = None)
    /\ (is_Some err -> h' = h)
    /\ (forall r, rec = Some r ->
        Attributes r = attributes
        /\ exists l,
            Extensions r = Some l
            /\ h !! l = None
            /\ dom h' = {[ l ]} ∪ dom h
            /\ (forall l0, is_Some (h !! l0) -> l0 <> l /\ h' !! l0 = h !! l0)).
Proof.
  unfold WrapTFResourceToKusionResource, mbind, Go_bind, bind.
  destruct (TerraformProviderExtensions_cases providerCfg resType h)
    as [(_ & E) | [(_ & _ & E) | [(_ & _ & _ & E)
       | [(_ & _ & _ & _ & E) | (_ & _ & _ & _ & url & E)]]]];
    rewrite E; eexists _, _, _; (split; [reflexivity|]).
  1-4: split_and!;
    [split; [intros [? [=]] | discriminate] | reflexivity | discriminate].
  split_and!.
  - split; [reflexivity | eauto].
  - intros [? [=]].
  - intros r [= <-]. simpl. split; [reflexivity|].
    pose proof (fresh_map_not_in_store h) as Hfresh.
    exists (fresh (dom h)). split_and!; try done.
    + now rewrite dom_insert_L.
    + intros l0 [m0 Hl0].
      assert (l0 <> fresh (dom h)) by congruence.
      split; [assumption|]. now rewrite lookup_insert_ne.
Qed.

Lemma TerraformProviderRegion_returns_witness :
  TerraformProviderRegion
    {| Source := "hashicorp/aws"; Version := "5.0.0";
       ProviderMeta := Some 1%positive |}
    {[ 1%positive := {[ "region" := VString "us-east-1" ]} ]}
  = Returns ("us-east-1", {[ 1%positive := {[ "region" := VString "us-east-1" ]} ]}).
Proof.
  apply (proj2 (TerraformProviderRegion_returns
                  {| Source := "hashicorp/aws"; Version := "5.0.0";
                     ProviderMeta := Some 1%positive |}
                  {[ 1%positive := {[ "region" := VString "us-east-1" ]} ]}
                  {[ 1%positive := {[ "region" := VString "us-east-1" ]} ]}
                  "us-east-1")).
  split; [reflexivity | left; reflexivity].
Defined.

(** ** Wrapping a Kubernetes object, further *)




